(** * serve.py: the static file server launcher

    A shallow embedding of [serve.py] and of the standard-library calls it
    makes.  The script is a straight line of calls followed by a blocking
    loop, so it is modelled as a program in a reader/state/exception monad
    [Py]: the reader part is the outside world (file system, network,
    environment, installed browsers, signals), the state part is the
    process (logical clock, working directory, listening socket, trace of
    observable events), and the exception part is Python's exception
    propagation.

    The script itself is [main].  The library code it runs is written
    after CPython 3.11 ([socketserver.py], [webbrowser.py]) as far as the
    control flow that the script can observe goes; what the library
    computes from the machine it runs on (the browsers it finds, whether a
    command starts, whether a write to standard error succeeds) is a field
    of the world.  Standard output is taken to be writable. *)

From Stdlib Require Import List String Ascii ZArith Bool Arith Lia DecimalString.
From ExtLib Require Import Structures.Monad Structures.MonadExc.
Import ListNotations.
Import MonadNotation.

Local Open Scope string_scope.
Local Open Scope monad_scope.

(** ** Exceptions *)

(** The [OSError]s the script can meet, by the subclass Python raises. *)
Inductive oserror : Type :=
| FileNotFoundError      (* ENOENT *)
| PermissionError        (* EACCES *)
| NotADirectoryError     (* ENOTDIR *)
| AddressInUse           (* OSError with errno EADDRINUSE *)
| OtherOSError (errno : Z).

(** [KeyboardInterrupt] derives from [BaseException] only; the other two
    derive from [Exception]. *)
Inductive exn : Type :=
| OSError (e : oserror)
| KeyboardInterrupt
| OtherException (name : string).

Definition is_Exception (e : exn) : bool :=
  match e with
  | KeyboardInterrupt => false
  | _ => true
  end.

Definition is_KeyboardInterrupt (e : exn) : bool :=
  match e with
  | KeyboardInterrupt => true
  | _ => false
  end.

(** ** The outside world *)

(** What a request handler can raise while it answers a connection. *)
Inductive handler_exn : Type :=
| ConnectionError (e : oserror)
| HandlerError (name : string).

Definition exn_of_handler (h : handler_exn) : exn :=
  match h with
  | ConnectionError e => OSError e
  | HandlerError n => OtherException n
  end.

(** What one turn of the serve loop finds on the listening socket. *)
Inductive loop_input : Type :=
| Idle                          (* select() timed out, nothing is ready *)
| AcceptFailed (e : oserror)    (* a connection was ready, accept() failed *)
| Request (status : Z)          (* a connection, answered with this status *)
| RequestRaises (h : handler_exn). (* a connection, the handler raises *)

(** What [register_standard_browsers] makes of the environment: the names
    to try, in order, or the exception it raises (an [IndexError] for a
    blank entry of [BROWSER], for one). *)
Inductive tryorder_result : Type :=
| TryOrder (names : list string)
| RegisterRaises (name : string).

(** What [get(name).open(url)] does: a command is started and ends well
    or not, no command can be started, or an exception is raised (a
    [ValueError] for a command line that cannot be split, for one). *)
Inductive attempt : Type :=
| Started (ok : bool)
| NotStarted
| OpenRaises (name : string).

Definition environment : Type := string -> option string.

Record World : Type := {
  chdir_result : string -> option oserror;      (* None: the chdir succeeds *)
  bind_result : string -> Z -> option oserror;  (* None: the bind succeeds *)
  environ : environment;                        (* os.environ *)
  tryorder : environment -> tryorder_result;
  browser_open : environment -> string -> string -> attempt;
  stderr_result : nat -> option oserror;
    (* None: the traceback of connection [i] is written to standard error *)
  sigint_ticks : list nat;           (* the ticks at which SIGINT arrives *)
  net : nat -> loop_input            (* the n-th turn of the serve loop *)
}.

(** Is SIGINT pending when the process passes tick [t]? *)
Definition sigint (w : World) (t : nat) : bool :=
  existsb (Nat.eqb t) (sigint_ticks w).

(** ** The process *)

Inductive sock_state : Type :=
| NoSocket | Created | Bound | Listening | Closed.

Inductive event : Type :=
| ESigInt                                    (* KeyboardInterrupt is raised *)
| EChdir (path : string) (r : option oserror)
| ESocket
| EBind (host : string) (port : Z) (r : option oserror)
| EListen
| EPrint (s : string)                        (* one call of print(s) *)
| EWebOpen (url : string)                    (* webbrowser.open(url) *)
| ELaunch (cmd url : string)                 (* a browser command is started *)
| EServeForever
| EAccept (i : nat)
| EResponse (i : nat) (status : Z)
| EHandleError (i : nat) (r : option oserror) (* the error is reported *)
| EShutdownRequest (i : nat)
| EServerClose.

Record Proc : Type := {
  clock : nat;              (* interruptible points passed so far *)
  cwd : list string;        (* working directory, below the start directory *)
  sock : sock_state;        (* the server's socket *)
  trace : list event        (* observable events, oldest first *)
}.

Definition init : Proc :=
  {| clock := 0; cwd := []; sock := NoSocket; trace := [] |}.

(** ** The monad *)

(** [Blocked]: the call has not returned within the observed time. *)
Inductive res (A : Type) : Type :=
| Val (a : A)
| Raise (e : exn)
| Blocked.
Arguments Val {A} a.
Arguments Raise {A} e.
Arguments Blocked {A}.

Definition Py (A : Type) : Type := World -> Proc -> res A * Proc.

#[global] Instance Monad_Py : Monad Py := {
  ret := fun A (a : A) _ st => (Val a, st);
  bind := fun A B (m : Py A) (k : A -> Py B) w st =>
    match m w st with
    | (Val a, st') => k a w st'
    | (Raise e, st') => (Raise e, st')
    | (Blocked, st') => (Blocked, st')
    end
}.

#[global] Instance MonadExc_Py : MonadExc exn Py := {
  raise := fun A (e : exn) _ st => (Raise e, st);
  catch := fun A (m : Py A) (h : exn -> Py A) w st =>
    match m w st with
    | (Raise e, st') => h e w st'
    | r => r
    end
}.

Definition world : Py World := fun w st => (Val w, st).
Definition get : Py Proc := fun _ st => (Val st, st).
Definition put (st : Proc) : Py unit := fun _ _ => (Val tt, st).
Definition blocked {A} : Py A := fun _ st => (Blocked, st).

Definition emit (e : event) : Py unit :=
  st <- get ;;
  put {| clock := clock st; cwd := cwd st; sock := sock st;
         trace := trace st ++ [e] |}.

Definition set_sock (s : sock_state) : Py unit :=
  st <- get ;;
  put {| clock := clock st; cwd := cwd st; sock := s; trace := trace st |}.

Definition set_cwd (d : list string) : Py unit :=
  st <- get ;;
  put {| clock := clock st; cwd := d; sock := sock st; trace := trace st |}.

Definition tick : Py nat :=
  st <- get ;;
  put {| clock := S (clock st); cwd := cwd st; sock := sock st;
         trace := trace st |} ;;
  ret (clock st).

(** An interruptible point: the interpreter runs the SIGINT handler here,
    which raises [KeyboardInterrupt] in the main thread.  The interpreter
    looks for signals when a call starts, when a call returns, and inside
    a call that waits (for a connection, for a request, for a browser
    command).  The cleanup code, that is [server_close] in the
    constructor's [except] clause and in [__exit__], is taken to run
    without an interrupt. *)
Definition checkpoint : Py unit :=
  w <- world ;;
  t <- tick ;;
  if sigint w t then emit ESigInt ;; raise KeyboardInterrupt else ret tt.

(** ** Statements *)

(** [try: body / except cls: handler] *)
Definition try_except {A} (body : Py A) (cls : exn -> bool) (handler : Py A)
  : Py A :=
  catch body (fun e => if cls e then handler else raise e).

(** [with mgr as v: body], for a manager whose [__enter__] returns the
    manager and whose [__exit__] returns [None].  An exception raised
    while [mgr] is evaluated, or after it has returned and before the
    body starts, leaves without [__exit__]. *)
Definition with_as {A B} (mgr : Py A) (exit_ : A -> Py unit)
  (body : A -> Py B) : Py B :=
  v <- mgr ;;
  r <- catch (body v) (fun e => exit_ v ;; raise e) ;;
  exit_ v ;;
  ret r.

(** ** Strings *)

Definition nl : string := String (ascii_of_nat 10) EmptyString.

(** [str(n)] for an [int]. *)
Definition str (n : Z) : string := NilZero.string_of_int (Z.to_int n).

(** [s.split(sep)] for a one-character separator. *)
Fixpoint split_acc (sep : ascii) (cur : string) (s : string) : list string :=
  match s with
  | EmptyString => [cur]
  | String c s' =>
      if Ascii.eqb c sep then cur :: split_acc sep EmptyString s'
      else split_acc sep (cur ++ String c EmptyString) s'
  end.

Definition split (sep : ascii) (s : string) : list string :=
  split_acc sep EmptyString s.

(** The lines of a text: every piece that a line feed ends, and the rest
    after the last line feed when it is not empty. *)
Definition text_lines (s : string) : list string :=
  let l := split (ascii_of_nat 10) s in
  match last l EmptyString with
  | EmptyString => removelast l
  | _ => l
  end.

(** ** builtins *)

Definition print (s : string) : Py unit :=
  checkpoint ;;
  emit (EPrint s) ;;
  checkpoint.

(** ** os *)

Module os.

Definition pathsep : ascii := ":"%char.

Definition chdir (path : string) : Py unit :=
  checkpoint ;;
  w <- world ;;
  let r := chdir_result w path in
  emit (EChdir path r) ;;
  match r with
  | Some e => raise (OSError e)
  | None => st <- get ;; set_cwd (cwd st ++ [path]) ;; checkpoint
  end.

End os.

(** ** http.server *)

Module http_server.

Inductive handler_class : Type := SimpleHTTPRequestHandler.

End http_server.

(** ** socketserver *)

Module socketserver.

Record server : Type := {
  server_address : string * Z;
  RequestHandlerClass : http_server.handler_class
}.

Definition server_bind (srv : server) : Py unit :=
  w <- world ;;
  let (host, port) := server_address srv in
  let r := bind_result w host port in
  emit (EBind host port r) ;;
  match r with
  | Some e => raise (OSError e)
  | None => set_sock Bound ;; checkpoint
  end.

Definition server_activate (srv : server) : Py unit :=
  emit EListen ;;
  set_sock Listening ;;
  checkpoint.

Definition server_close (srv : server) : Py unit :=
  emit EServerClose ;;
  set_sock Closed.

(** [TCPServer.__init__] with [bind_and_activate=True]: whatever is
    raised between the creation of the socket and the end of
    [server_activate] closes the socket and is raised again.  The last
    interruptible point is the return of the constructor to the script,
    outside that [try]. *)
Definition TCPServer (addr : string * Z) (h : http_server.handler_class)
  : Py server :=
  let srv := {| server_address := addr; RequestHandlerClass := h |} in
  checkpoint ;;
  emit ESocket ;;
  set_sock Created ;;
  catch (server_bind srv ;; server_activate srv)
        (fun e => server_close srv ;; raise e) ;;
  checkpoint ;;
  ret srv.

(** [BaseServer.__exit__] *)
Definition __exit__ (srv : server) : Py unit := server_close srv.

Definition finish_request (i : nat) (status : Z + handler_exn) : Py unit :=
  checkpoint ;;
  match status with
  | inl s => emit (EResponse i s)
  | inr h => raise (exn_of_handler h)
  end.

Definition shutdown_request (i : nat) : Py unit :=
  emit (EShutdownRequest i).

(** [BaseServer.handle_error] prints the traceback to [sys.stderr]; an
    error of that write is raised to the caller. *)
Definition handle_error (i : nat) : Py unit :=
  checkpoint ;;
  w <- world ;;
  let r := stderr_result w i in
  emit (EHandleError i r) ;;
  match r with
  | Some e => raise (OSError e)
  | None => ret tt
  end.

(** [BaseServer.process_request]: the request is handled in the calling
    thread, then its connection is shut down. *)
Definition process_request (i : nat) (status : Z + handler_exn) : Py unit :=
  finish_request i status ;;
  shutdown_request i.

(** [BaseServer._handle_request_noblock].  What [handle_error] raises
    leaves the [except Exception] clause as it is: the connection is not
    shut down and no other clause of the [try] applies. *)
Definition _handle_request_noblock (i : nat) (inp : loop_input) : Py unit :=
  match inp with
  | Idle => ret tt
  | AcceptFailed _ => ret tt
  | Request s =>
      emit (EAccept i) ;;
      catch (process_request i (inl s))
            (fun e => if is_Exception e
                      then handle_error i ;; shutdown_request i
                      else shutdown_request i ;; raise e)
  | RequestRaises h =>
      emit (EAccept i) ;;
      catch (process_request i (inr h))
            (fun e => if is_Exception e
                      then handle_error i ;; shutdown_request i
                      else shutdown_request i ;; raise e)
  end.

(** The [while] loop of [BaseServer.serve_forever]; nothing in the script
    calls [shutdown], so its condition is always true.  [fuel] bounds the
    turns that are observed, [i] numbers the turn. *)
Fixpoint serve_loop (fuel : nat) (i : nat) : Py unit :=
  match fuel with
  | O => blocked
  | S fuel' =>
      checkpoint ;;                      (* selector.select(poll_interval) *)
      w <- world ;;
      _handle_request_noblock i (net w i) ;;
      serve_loop fuel' (S i)
  end.

Definition serve_forever (srv : server) (fuel : nat) : Py unit :=
  emit EServeForever ;;
  serve_loop fuel 0.

End socketserver.

(** ** webbrowser *)

Module webbrowser.

Definition register_standard_browsers : Py (list string) :=
  w <- world ;;
  match tryorder w (environ w) with
  | TryOrder names => ret names
  | RegisterRaises n => raise (OtherException n)
  end.

(** The [for] loop of [webbrowser.open]: the browsers are tried in order
    until one reports success.  A command that was started is waited
    for. *)
Fixpoint try_browsers (url : string) (names : list string) : Py bool :=
  match names with
  | [] => ret false
  | name :: rest =>
      w <- world ;;
      match browser_open w (environ w) name url with
      | OpenRaises n => raise (OtherException n)
      | NotStarted => try_browsers url rest
      | Started ok =>
          emit (ELaunch name url) ;;
          checkpoint ;;
          if ok then ret true else try_browsers url rest
      end
  end.

(** [webbrowser.open]: [True] when a browser reported success, [False]
    when none did; what the registration or a browser raises is not
    caught. *)
Definition open (url : string) : Py bool :=
  checkpoint ;;
  emit (EWebOpen url) ;;
  names <- register_standard_browsers ;;
  b <- try_browsers url names ;;
  checkpoint ;;
  ret b.

End webbrowser.

(** ** serve.py *)

Definition PORT : Z := 8000.

Definition Handler : http_server.handler_class :=
  http_server.SimpleHTTPRequestHandler.

Definition main (fuel : nat) : Py unit :=
  os.chdir "public" ;;
  with_as (socketserver.TCPServer ("", PORT) Handler) socketserver.__exit__
    (fun httpd =>
       print ("Serving at http://localhost:" ++ str PORT) ;;
       print "Press Ctrl+C to stop the server" ;;
       _ <- webbrowser.open ("http://localhost:" ++ str PORT) ;;
       try_except (socketserver.serve_forever httpd fuel)
                  is_KeyboardInterrupt
                  (print (nl ++ "Server stopped."))).

(** ** Running the script as a process *)

Inductive outcome : Type :=
| Exited (code : Z)        (* the script ran to its end *)
| Unhandled (e : exn)      (* an exception reached the top level *)
| Running.                 (* still inside the serve loop *)

Definition run (w : World) (fuel : nat) : outcome * Proc :=
  let (r, st) := main fuel w init in
  (match r with
   | Val _ => Exited 0%Z
   | Raise e => Unhandled e
   | Blocked => Running
   end, st).

(** The exit code the parent process sees.  After an unhandled
    [KeyboardInterrupt] the interpreter ends the process with SIGINT, so
    there is a signal and no exit code. *)
Definition exit_status (o : outcome) : option Z :=
  match o with
  | Exited c => Some c
  | Unhandled KeyboardInterrupt => None
  | Unhandled _ => Some 1%Z                    (* traceback *)
  | Running => None
  end.

Definition ended_by_signal (o : outcome) : option Z :=
  match o with
  | Unhandled KeyboardInterrupt => Some 2%Z    (* SIGINT *)
  | _ => None
  end.

(** ** Observations on a trace *)

Definition is_sigint (e : event) : bool :=
  match e with ESigInt => true | _ => false end.

Definition is_print (e : event) : bool :=
  match e with EPrint _ => true | _ => false end.

Definition is_webopen (e : event) : bool :=
  match e with EWebOpen _ => true | _ => false end.

Definition is_launch (e : event) : bool :=
  match e with ELaunch _ _ => true | _ => false end.

Definition is_bind (e : event) : bool :=
  match e with EBind _ _ _ => true | _ => false end.

Definition is_serve (e : event) : bool :=
  match e with EServeForever => true | _ => false end.

Definition count (p : event -> bool) (t : list event) : nat :=
  List.length (filter p t).

(** The text that reaches standard output: [print(s)] writes [s] and a
    line feed. *)
Fixpoint stdout_of (t : list event) : string :=
  match t with
  | [] => EmptyString
  | EPrint s :: t' => s ++ nl ++ stdout_of t'
  | _ :: t' => stdout_of t'
  end.

(** The events before and after the entry into [serve_forever]. *)
Fixpoint before_serve (t : list event) : list event :=
  match t with
  | [] => []
  | EServeForever :: _ => []
  | e :: t' => e :: before_serve t'
  end.

Fixpoint after_serve (t : list event) : list event :=
  match t with
  | [] => []
  | EServeForever :: t' => t'
  | _ :: t' => after_serve t'
  end.

(** Requests are handled one at a time: [serving cur t] follows the trace
    [t] from the connection in progress [cur] and fails as soon as a
    connection is accepted while another is in progress, or an answer, an
    error report or a shutdown concerns a connection that is not the one
    in progress. *)
Fixpoint serving (cur : option nat) (t : list event) : option (option nat) :=
  match t with
  | [] => Some cur
  | EAccept i :: t' =>
      match cur with
      | None => serving (Some i) t'
      | Some _ => None
      end
  | EResponse i _ :: t' | EHandleError i _ :: t' =>
      match cur with
      | Some j => if Nat.eqb i j then serving cur t' else None
      | None => None
      end
  | EShutdownRequest i :: t' =>
      match cur with
      | Some j => if Nat.eqb i j then serving None t' else None
      | None => None
      end
  | _ :: t' => serving cur t'
  end.

(** The status lines and the URL of the script. *)
Definition url : string := "http://localhost:8000".
Definition line1 : string := "Serving at http://localhost:8000".
Definition line2 : string := "Press Ctrl+C to stop the server".
Definition stopped : string := nl ++ "Server stopped.".

(** What [webbrowser.open] does when no signal arrives: the commands it
    starts, in order, and what it returns or the exception it raises. *)
Fixpoint attempts (w : World) (names : list string)
  : list string * (bool + string) :=
  match names with
  | [] => ([], inl false)
  | name :: rest =>
      match browser_open w (environ w) name url with
      | OpenRaises n => ([], inr n)
      | NotStarted => attempts w rest
      | Started true => ([name], inl true)
      | Started false =>
          let (l, r) := attempts w rest in (name :: l, r)
      end
  end.

Definition browser_run (w : World) : list string * (bool + string) :=
  match tryorder w (environ w) with
  | TryOrder names => attempts w names
  | RegisterRaises n => ([], inr n)
  end.

Definition launch (c : string) : event := ELaunch c url.

(** The events of a startup, up to the end of the browser launch. *)
Definition launch_events (w : World) : list event :=
  map launch (fst (browser_run w)).

Definition bound_events : list event :=
  [EChdir "public" None; ESocket; EBind "" 8000 None; EListen].

Definition startup_events (w : World) : list event :=
  (bound_events ++ [EPrint line1; EPrint line2; EWebOpen url]
   ++ launch_events w)%list.

(** ** Runs *)

Definition outcome_of (w : World) (fuel : nat) : outcome := fst (run w fuel).
Definition final (w : World) (fuel : nat) : Proc := snd (run w fuel).
Definition trace_of (w : World) (fuel : nat) : list event :=
  trace (final w fuel).

Definition proc (c : nat) (d : list string) (s : sock_state)
  (t : list event) : Proc :=
  {| clock := c; cwd := d; sock := s; trace := t |}.

(** The events that the serve loop itself produces. *)
Definition loop_event (e : event) : bool :=
  match e with
  | ESigInt | EAccept _ | EResponse _ _ | EHandleError _ _
  | EShutdownRequest _ => true
  | _ => false
  end.

(** The report of a request error could not be written. *)
Definition is_stderr_failure (e : event) : bool :=
  match e with EHandleError _ (Some _) => true | _ => false end.

(** What a turn of the serve loop adds to the trace when it is neither
    interrupted nor stopped by standard error: nothing when no connection
    comes in, and otherwise the connection accepted, answered or its
    error reported, and shut down. *)
Definition turn_events (w : World) (i : nat) : list event :=
  match net w i with
  | Idle | AcceptFailed _ => []
  | Request s => [EAccept i; EResponse i s; EShutdownRequest i]
  | RequestRaises _ => [EAccept i; EHandleError i None; EShutdownRequest i]
  end.

Definition turns (w : World) (i n : nat) : list event :=
  flat_map (turn_events w) (seq i n).

(** No SIGINT is pending at a tick from [a] up to, not including, [b]. *)
Definition quiet_between (w : World) (a b : nat) : Prop :=
  forall t, a <= t < b -> sigint w t = false.

(** A stretch of the loop's trace: loop events only, with [nsig]
    interrupts and [nfail] failed error reports, handled one at a time
    and leaving the connection [cur] in progress. *)
Definition loop_trace (l : list event) (nsig nfail : nat)
  (cur : option nat) : Prop :=
  forallb loop_event l = true /\
  count is_sigint l = nsig /\
  count is_stderr_failure l = nfail /\
  serving None l = Some cur.

(** What [serve_loop fuel i] can do from a state [st]: it never returns.
    Either it is still looping after [fuel] turns, each of them complete,
    or a [KeyboardInterrupt] left it, at the first tick at which SIGINT
    was pending, or the error of a report to standard error left it.
    Working directory and socket are untouched. *)
Inductive loop_shape (w : World) (fuel i : nat) (st : Proc)
  : res unit * Proc -> Prop :=
| loop_blocked (c : nat) :
    loop_trace (turns w i fuel) 0 0 None ->
    clock st + fuel <= c ->
    quiet_between w (clock st) c ->
    (forall j e, i <= j < i + fuel -> net w j = RequestRaises e ->
                 stderr_result w j = None) ->
    loop_shape w fuel i st
      (Blocked, proc c (cwd st) (sock st) (trace st ++ turns w i fuel))
| loop_interrupted (l : list event) (k : nat) (cur : option nat) :
    loop_trace l 1 0 cur ->
    clock st <= k ->
    quiet_between w (clock st) k ->
    sigint w k = true ->
    loop_shape w fuel i st
      (Raise KeyboardInterrupt,
       proc (S k) (cwd st) (sock st) (trace st ++ l))
| loop_stderr_failed (l : list event) (c j : nat) (e : oserror) :
    loop_trace l 0 1 (Some j) ->
    stderr_result w j = Some e ->
    loop_shape w fuel i st
      (Raise (OSError e), proc c (cwd st) (sock st) (trace st ++ l)).

(** What [try_browsers] can do from a state [st]: it returns or raises
    as [attempts] says, or a [KeyboardInterrupt] is raised while it waits
    for a command it has started. *)
Inductive browse_shape (w : World) (names : list string) (st : Proc)
  : res bool * Proc -> Prop :=
| browse_returned (b : bool) :
    snd (attempts w names) = inl b ->
    quiet_between w (clock st)
      (clock st + List.length (fst (attempts w names))) ->
    browse_shape w names st
      (Val b,
       proc (clock st + List.length (fst (attempts w names)))
         (cwd st) (sock st)
         (trace st ++ map launch (fst (attempts w names))))
| browse_raised (n : string) (c : nat) :
    snd (attempts w names) = inr n ->
    browse_shape w names st
      (Raise (OtherException n),
       proc c (cwd st) (sock st)
         (trace st ++ map launch (fst (attempts w names))))
| browse_interrupted (ls : list string) (k c : nat) :
    ls <> [] ->
    clock st <= k < clock st + List.length (fst (attempts w names)) ->
    sigint w k = true ->
    browse_shape w names st
      (Raise KeyboardInterrupt,
       proc c (cwd st) (sock st)
         (trace st ++ map launch ls ++ [ESigInt])).

(** The tick at which the serve loop starts when nothing goes wrong:
    twelve interruptible points of the calls before it (two of [chdir],
    four of the constructor, two of each [print], two of
    [webbrowser.open]), and one for each browser command that is waited
    for. *)
Definition loop_start (w : World) : nat :=
  12 + List.length (fst (browser_run w)).

(** The world lets the script reach the serve loop: the directory is
    there, the port is free, [webbrowser.open] returns, and no SIGINT
    arrives before the loop. *)
Definition started (w : World) : Prop :=
  chdir_result w "public" = None /\
  bind_result w "" PORT = None /\
  (exists b, snd (browser_run w) = inl b) /\
  quiet_between w 0 (loop_start w).

(** Every run of the script has one of these shapes. *)
Inductive run_shape (w : World) (fuel : nat) : outcome * Proc -> Prop :=
| run_sigint_chdir :
    sigint w 0 = true ->
    run_shape w fuel
      (Unhandled KeyboardInterrupt, proc 1 [] NoSocket [ESigInt])
| run_chdir_failed (e : oserror) :
    chdir_result w "public" = Some e ->
    run_shape w fuel
      (Unhandled (OSError e), proc 1 [] NoSocket [EChdir "public" (Some e)])
| run_sigint_after_chdir (k c : nat) :
    chdir_result w "public" = None ->
    k < 3 ->
    sigint w k = true ->
    run_shape w fuel
      (Unhandled KeyboardInterrupt,
       proc c ["public"] NoSocket [EChdir "public" None; ESigInt])
| run_bind_failed (e : oserror) :
    chdir_result w "public" = None ->
    bind_result w "" PORT = Some e ->
    run_shape w fuel
      (Unhandled (OSError e),
       proc 3 ["public"] Closed
         [EChdir "public" None; ESocket; EBind "" PORT (Some e);
          EServerClose])
| run_sigint_constructor (mid : list event) (k c : nat) :
    chdir_result w "public" = None ->
    bind_result w "" PORT = None ->
    mid = [] \/ mid = [EListen] ->
    k < 5 ->
    sigint w k = true ->
    run_shape w fuel
      (Unhandled KeyboardInterrupt,
       proc c ["public"] Closed
         ([EChdir "public" None; ESocket; EBind "" PORT None] ++ mid
          ++ [ESigInt; EServerClose]))
| run_sigint_unentered :
    chdir_result w "public" = None ->
    bind_result w "" PORT = None ->
    sigint w 5 = true ->
    run_shape w fuel
      (Unhandled KeyboardInterrupt,
       proc 6 ["public"] Listening (bound_events ++ [ESigInt]))
| run_sigint_startup (pre : list event) (k c : nat) :
    chdir_result w "public" = None ->
    bind_result w "" PORT = None ->
    pre = [] \/ pre = [EPrint line1] \/ pre = [EPrint line1; EPrint line2] ->
    k < 11 ->
    sigint w k = true ->
    run_shape w fuel
      (Unhandled KeyboardInterrupt,
       proc c ["public"] Closed
         (bound_events ++ pre ++ [ESigInt; EServerClose]))
| run_sigint_browser (ls : list string) (k c : nat) :
    chdir_result w "public" = None ->
    bind_result w "" PORT = None ->
    ls <> [] ->
    k < loop_start w ->
    sigint w k = true ->
    run_shape w fuel
      (Unhandled KeyboardInterrupt,
       proc c ["public"] Closed
         (bound_events ++ [EPrint line1; EPrint line2; EWebOpen url]
          ++ map launch ls ++ [ESigInt; EServerClose]))
| run_browser_raised (n : string) (c : nat) :
    chdir_result w "public" = None ->
    bind_result w "" PORT = None ->
    snd (browser_run w) = inr n ->
    run_shape w fuel
      (Unhandled (OtherException n),
       proc c ["public"] Closed (startup_events w ++ [EServerClose]))
| run_sigint_after_open (b : bool) :
    chdir_result w "public" = None ->
    bind_result w "" PORT = None ->
    snd (browser_run w) = inl b ->
    sigint w (loop_start w - 1) = true ->
    run_shape w fuel
      (Unhandled KeyboardInterrupt,
       proc (loop_start w) ["public"] Closed
         (startup_events w ++ [ESigInt; EServerClose]))
| run_serving (c : nat) :
    started w ->
    loop_trace (turns w 0 fuel) 0 0 None ->
    loop_start w + fuel <= c ->
    quiet_between w 0 c ->
    (forall j e, j < fuel -> net w j = RequestRaises e ->
                 stderr_result w j = None) ->
    run_shape w fuel
      (Running,
       proc c ["public"] Listening
         (startup_events w ++ EServeForever :: turns w 0 fuel))
| run_stopped (l : list event) (k : nat) (cur : option nat) :
    started w ->
    loop_trace l 1 0 cur ->
    loop_start w <= k ->
    sigint w k = true ->
    sigint w (S k) = false ->
    sigint w (S (S k)) = false ->
    run_shape w fuel
      (Exited 0,
       proc (S (S (S k))) ["public"] Closed
         (startup_events w ++ EServeForever :: l
          ++ [EPrint stopped; EServerClose]))
| run_stop_interrupted (l : list event) (k : nat) (cur : option nat) :
    started w ->
    loop_trace l 1 0 cur ->
    loop_start w <= k ->
    sigint w k = true ->
    sigint w (S k) = true ->
    run_shape w fuel
      (Unhandled KeyboardInterrupt,
       proc (S (S k)) ["public"] Closed
         (startup_events w ++ EServeForever :: l
          ++ [ESigInt; EServerClose]))
| run_stop_interrupted_late (l : list event) (k : nat) (cur : option nat) :
    started w ->
    loop_trace l 1 0 cur ->
    loop_start w <= k ->
    sigint w k = true ->
    sigint w (S (S k)) = true ->
    run_shape w fuel
      (Unhandled KeyboardInterrupt,
       proc (S (S (S k))) ["public"] Closed
         (startup_events w ++ EServeForever :: l
          ++ [EPrint stopped; ESigInt; EServerClose]))
| run_stderr_failed (l : list event) (c j : nat) (e : oserror) :
    started w ->
    loop_trace l 0 1 (Some j) ->
    stderr_result w j = Some e ->
    run_shape w fuel
      (Unhandled (OSError e),
       proc c ["public"] Closed
         (startup_events w ++ EServeForever :: l ++ [EServerClose])).

(** ** Worlds *)

(** The same world with another process environment. *)
Definition with_environ (w : World) (env : environment) : World :=
  {| chdir_result := chdir_result w;
     bind_result := bind_result w;
     environ := env;
     tryorder := tryorder w;
     browser_open := browser_open w;
     stderr_result := stderr_result w;
     sigint_ticks := sigint_ticks w;
     net := net w |}.

(** The same world with another schedule of SIGINTs. *)
Definition with_sigint (w : World) (ticks : list nat) : World :=
  {| chdir_result := chdir_result w;
     bind_result := bind_result w;
     environ := environ w;
     tryorder := tryorder w;
     browser_open := browser_open w;
     stderr_result := stderr_result w;
     sigint_ticks := ticks;
     net := net w |}.

Definition nonempty (s : string) : bool :=
  match s with
  | EmptyString => false
  | _ => true
  end.

(** The ASCII characters that [str.split()] takes for white space. *)
Definition isspace (c : ascii) : bool :=
  let n := nat_of_ascii c in
  (Nat.leb 9 n && Nat.leb n 13) || (Nat.leb 28 n && Nat.leb n 32).

(** [s.split()] is empty. *)
Fixpoint blank (s : string) : bool :=
  match s with
  | EmptyString => true
  | String c s' => isspace c && blank s'
  end.

(** The browsers to try on a host whose own browsers are [platform]: the
    commands named by [BROWSER], when it is set, go first; a blank entry
    makes the registration raise [IndexError]. *)
Definition posix_tryorder (platform : list string) (env : environment)
  : tryorder_result :=
  match env "BROWSER" with
  | None => TryOrder platform
  | Some v =>
      let choices := filter nonempty (split os.pathsep v) in
      if existsb blank choices then RegisterRaises "IndexError"
      else TryOrder (choices ++ platform)
  end.

(** A world in which everything works: [public] exists, the port is free,
    every browser command starts and ends well, standard error is
    writable, nobody presses Ctrl+C, and the clients send a request on
    every other turn of the loop, one of which breaks off. *)
Definition calm : World :=
  {| chdir_result := fun _ => None;
     bind_result := fun _ _ => None;
     environ := fun _ => None;
     tryorder := posix_tryorder ["xdg-open"];
     browser_open := fun _ _ _ => Started true;
     stderr_result := fun _ => None;
     sigint_ticks := [];
     net := fun n =>
       match n with
       | 0 => Idle
       | 1 => Request 200
       | 2 => RequestRaises (ConnectionError (OtherOSError 104))
       | 3 => Request 404
       | _ => if Nat.even n then Idle else Request 200
       end |}.

(** [public] is missing. *)
Definition no_public : World :=
  {| chdir_result := fun _ => Some FileNotFoundError;
     bind_result := bind_result calm;
     environ := environ calm;
     tryorder := tryorder calm;
     browser_open := browser_open calm;
     stderr_result := stderr_result calm;
     sigint_ticks := sigint_ticks calm;
     net := net calm |}.

(** Another process listens on the port. *)
Definition port_taken : World :=
  {| chdir_result := chdir_result calm;
     bind_result := fun _ _ => Some AddressInUse;
     environ := environ calm;
     tryorder := tryorder calm;
     browser_open := browser_open calm;
     stderr_result := stderr_result calm;
     sigint_ticks := sigint_ticks calm;
     net := net calm |}.

(** No browser command can be started. *)
Definition headless : World :=
  {| chdir_result := chdir_result calm;
     bind_result := bind_result calm;
     environ := environ calm;
     tryorder := tryorder calm;
     browser_open := fun _ _ _ => NotStarted;
     stderr_result := stderr_result calm;
     sigint_ticks := sigint_ticks calm;
     net := net calm |}.


(** An environment that sets [BROWSER] and nothing else. *)
Definition browser_env (v : string) : environment :=
  fun k => if String.eqb k "BROWSER" then Some v else None.


(** ** Further observations *)

Definition is_close (e : event) : bool :=
  match e with EServerClose => true | _ => false end.

Definition is_chdir (e : event) : bool :=
  match e with EChdir _ _ => true | _ => false end.


(** The trace up to the call of [webbrowser.open], that call included. *)
Fixpoint upto_open (t : list event) : list event :=
  match t with
  | [] => []
  | EWebOpen u :: _ => [EWebOpen u]
  | e :: t' => e :: upto_open t'
  end.

(** * Properties *)

Arguments sigint : simpl never.

Local Open Scope list_scope.

(** ** The library functions on sample inputs *)

Example str_PORT : str PORT = "8000"%string.
Proof. reflexivity. Qed.

Example split_pathsep :
  split os.pathsep "lynx::w3m" = ["lynx"; ""; "w3m"]%string.
Proof. reflexivity. Qed.

Example tryorder_BROWSER :
  posix_tryorder ["xdg-open"%string] (browser_env "lynx::w3m") =
  TryOrder ["lynx"; "w3m"; "xdg-open"]%string.
Proof. reflexivity. Qed.

Example tryorder_blank_BROWSER :
  posix_tryorder ["xdg-open"%string] (browser_env " ") =
  RegisterRaises "IndexError".
Proof. reflexivity. Qed.

Example text_lines_two :
  text_lines ("a" ++ nl ++ "b" ++ nl) = ["a"; "b"]%string.
Proof. reflexivity. Qed.

Example text_lines_unfinished :
  text_lines ("a" ++ nl ++ "b") = ["a"; "b"]%string.
Proof. reflexivity. Qed.

Example run_calm_interrupted :
  trace_of (with_sigint calm [17]) 9 =
  [EChdir "public" None; ESocket; EBind "" 8000 None; EListen;
   EPrint "Serving at http://localhost:8000";
   EPrint "Press Ctrl+C to stop the server";
   EWebOpen "http://localhost:8000";
   ELaunch "xdg-open" "http://localhost:8000"; EServeForever;
   EAccept 1; EResponse 1 200; EShutdownRequest 1;
   EAccept 2; ESigInt; EShutdownRequest 2;
   EPrint stopped; EServerClose].
Proof. vm_compute. reflexivity. Qed.

(** A blank [BROWSER] makes [webbrowser.open] raise: the script ends with
    that error, the socket closed by the [with] block. *)
Example run_blank_BROWSER :
  run (with_environ calm (browser_env " ")) 3 =
  (Unhandled (OtherException "IndexError"),
   proc 11 ["public"%string] Closed
     (bound_events ++ [EPrint line1; EPrint line2; EWebOpen url;
                       EServerClose])).
Proof. vm_compute. reflexivity. Qed.

(** ** Traces *)

Lemma serving_app (t1 t2 : list event) : forall cur,
  serving cur (t1 ++ t2) =
  match serving cur t1 with
  | Some c => serving c t2
  | None => None
  end.
Proof.
  induction t1 as [|e t1 IH]; intros cur; [reflexivity|].
  destruct e; cbn [serving app]; try apply IH;
    destruct cur as [j|]; try reflexivity; try apply IH;
    destruct (Nat.eqb _ j); try reflexivity; apply IH.
Qed.

Lemma count_app (p : event -> bool) (t1 t2 : list event) :
  count p (t1 ++ t2) = count p t1 + count p t2.
Proof. unfold count. rewrite filter_app, length_app. reflexivity. Qed.

Lemma string_app_assoc (a b c : string) :
  ((a ++ b) ++ c)%string = (a ++ b ++ c)%string.
Proof.
  induction a as [|x a IH]; [reflexivity|].
  cbn. rewrite IH. reflexivity.
Qed.

Lemma stdout_of_app (t1 t2 : list event) :
  stdout_of (t1 ++ t2) = (stdout_of t1 ++ stdout_of t2)%string.
Proof.
  induction t1 as [|e t1 IH]; [reflexivity|].
  destruct e; cbn [stdout_of app]; try exact IH.
  rewrite IH, !string_app_assoc. reflexivity.
Qed.

Lemma loop_event_In (l : list event) (e : event) :
  forallb loop_event l = true -> In e l -> loop_event e = true.
Proof. intros H. apply (proj1 (forallb_forall loop_event l) H). Qed.

(** A filter that rejects loop events leaves nothing of a loop's trace. *)
Lemma filter_loop (p : event -> bool) (l : list event) :
  (forall e, loop_event e = true -> p e = false) ->
  forallb loop_event l = true ->
  filter p l = [].
Proof.
  intros Hp. induction l as [|e l IH]; [reflexivity|].
  cbn [forallb filter]. intros H. apply andb_prop in H as [He Hl].
  rewrite (Hp e He). exact (IH Hl).
Qed.

Lemma stdout_of_loop (l : list event) :
  forallb loop_event l = true -> stdout_of l = EmptyString.
Proof.
  induction l as [|e l IH]; [reflexivity|].
  cbn [forallb]. intros H. apply andb_prop in H as [He Hl].
  destruct e; try discriminate He; cbn [stdout_of]; exact (IH Hl).
Qed.

(** The same for the events of the browser launch. *)
Lemma launch_In (ls : list string) (e : event) :
  In e (map launch ls) -> exists cmd, e = ELaunch cmd url.
Proof.
  intros H. apply in_map_iff in H as (c & <- & _). exists c. reflexivity.
Qed.

Lemma filter_launch (p : event -> bool) (ls : list string) :
  (forall c u, p (ELaunch c u) = false) -> filter p (map launch ls) = [].
Proof.
  intros Hp. induction ls as [|c ls IH]; [reflexivity|].
  cbn. unfold launch at 1. rewrite Hp. exact IH.
Qed.

Lemma filter_launch_all (ls : list string) :
  filter is_launch (map launch ls) = map launch ls.
Proof.
  induction ls as [|c ls IH]; [reflexivity|]. cbn. rewrite IH. reflexivity.
Qed.

Lemma stdout_of_launch (ls : list string) :
  stdout_of (map launch ls) = EmptyString.
Proof. induction ls as [|c ls IH]; [reflexivity|]. exact IH. Qed.


Lemma before_serve_launch (ls : list string) (t : list event) :
  before_serve (map launch ls ++ EServeForever :: t) = map launch ls.
Proof.
  induction ls as [|c ls IH]; [reflexivity|]. cbn. rewrite IH. reflexivity.
Qed.

Lemma after_serve_launch (ls : list string) (t : list event) :
  after_serve (map launch ls ++ EServeForever :: t) = t.
Proof. induction ls as [|c ls IH]; [reflexivity|]. cbn. exact IH. Qed.

Lemma upto_open_launch (ls : list string) (t : list event) :
  upto_open (bound_events ++ [EPrint line1; EPrint line2; EWebOpen url]
             ++ map launch ls ++ t) =
  bound_events ++ [EPrint line1; EPrint line2; EWebOpen url].
Proof. reflexivity. Qed.

Lemma proc_eta (st : Proc) :
  st = proc (clock st) (cwd st) (sock st) (trace st ++ []).
Proof. rewrite app_nil_r. destruct st; reflexivity. Qed.

Ltac flatten_trace :=
  repeat rewrite <- app_assoc; cbn [app].

(** ** Signals *)

Lemma quiet_between_empty (w : World) (a : nat) : quiet_between w a a.
Proof. intros t Ht. lia. Qed.

Lemma quiet_between_step (w : World) (a b : nat) :
  sigint w a = false -> quiet_between w (S a) b -> quiet_between w a b.
Proof.
  intros Ha Hq t Ht. destruct (Nat.eq_dec t a) as [->|Hne]; [exact Ha|].
  apply Hq. lia.
Qed.

Lemma quiet_between_app (w : World) (a b c : nat) :
  quiet_between w a b -> quiet_between w b c -> quiet_between w a c.
Proof.
  intros H1 H2 t Ht.
  destruct (Nat.lt_ge_cases t b); [apply H1 | apply H2]; lia.
Qed.


Lemma pending_scheduled (w : World) (t : nat) :
  sigint w t = true <-> In t (sigint_ticks w).
Proof.
  unfold sigint. rewrite existsb_exists. split.
  - intros (x & Hx & E). apply Nat.eqb_eq in E. subst. exact Hx.
  - intros H. exists t. split; [exact H | apply Nat.eqb_refl].
Qed.

Ltac quiet_steps :=
  repeat (apply quiet_between_step; [assumption|]);
  apply quiet_between_empty.

(** ** The serve loop *)

Lemma loop_trace_app (l0 l : list event) (n f : nat) (cur : option nat) :
  loop_trace l0 0 0 None -> loop_trace l n f cur ->
  loop_trace (l0 ++ l) n f cur.
Proof.
  intros (E0 & S0 & F0 & V0) (E & Sn & Fn & V). repeat split.
  - rewrite forallb_app, E0, E. reflexivity.
  - rewrite count_app, S0, Sn. reflexivity.
  - rewrite count_app, F0, Fn. reflexivity.
  - rewrite serving_app, V0. exact V.
Qed.

Lemma loop_trace_turn (w : World) (i : nat) :
  loop_trace (turn_events w i) 0 0 None.
Proof.
  unfold turn_events, loop_trace, count.
  destruct (net w i); cbn; rewrite ?Nat.eqb_refl; repeat split.
Qed.

Lemma turns_S (w : World) (i n : nat) :
  turns w i (S n) = turn_events w i ++ turns w (S i) n.
Proof. reflexivity. Qed.

Lemma loop_shape_cons (w : World) (fuel i : nat) (st : Proc) (c0 : nat)
  (r : res unit * Proc) :
  clock st < c0 ->
  quiet_between w (clock st) c0 ->
  (forall e, net w i = RequestRaises e -> stderr_result w i = None) ->
  loop_shape w fuel (S i)
    (proc c0 (cwd st) (sock st) (trace st ++ turn_events w i)) r ->
  loop_shape w (S fuel) i st r.
Proof.
  intros Hlt Hq He H.
  inversion H as [c T Hc Qc Ec | l k cur T Hk Qk Pk | l c j e T Ej]; subst;
    cbn [proc cwd sock trace clock] in *; rewrite <- app_assoc.
  - rewrite <- turns_S. apply loop_blocked.
    + rewrite turns_S. apply loop_trace_app; [apply loop_trace_turn | exact T].
    + lia.
    + apply (quiet_between_app w _ c0); assumption.
    + intros j e Hj En. destruct (Nat.eq_dec j i) as [->|Hne].
      * exact (He e En).
      * apply (Ec j e); [lia | exact En].
  - apply (loop_interrupted w _ _ st _ k cur); trivial.
    + apply loop_trace_app; [apply loop_trace_turn | exact T].
    + lia.
    + apply (quiet_between_app w _ c0); assumption.
  - apply (loop_stderr_failed w _ _ st _ c j e); trivial.
    apply loop_trace_app; [apply loop_trace_turn | exact T].
Qed.

Ltac loop_trace_now :=
  unfold loop_trace, count; cbn; rewrite ?Nat.eqb_refl; repeat split.

Ltac one_turn w i st c0 En IH :=
  apply (loop_shape_cons w _ i st c0);
  [ cbn [clock]; lia
  | quiet_steps
  | intros ? En'; congruence
  | unfold turn_events; rewrite En; rewrite ?app_nil_r; apply IH ].

Lemma serve_loop_shape (w : World) : forall fuel i st,
  loop_shape w fuel i st (socketserver.serve_loop fuel i w st).
Proof.
  induction fuel as [|fuel IH]; intros i st.
  - cbn. rewrite (proc_eta st) at 2.
    apply (loop_blocked w 0 i st (clock st)).
    + loop_trace_now.
    + lia.
    + apply quiet_between_empty.
    + intros j e Hj. lia.
  - cbn. destruct (sigint w (clock st)) eqn:E0; cbn.
    { apply (loop_interrupted w _ i st [ESigInt] (clock st) None); trivial.
      - loop_trace_now.
      - apply quiet_between_empty. }
    destruct (net w i) as [|e|s|h] eqn:En; cbn.
    + one_turn w i st (S (clock st)) En IH.
    + one_turn w i st (S (clock st)) En IH.
    + destruct (sigint w (S (clock st))) eqn:E1; cbn; flatten_trace.
      { apply (loop_interrupted w _ i st
                 [EAccept i; ESigInt; EShutdownRequest i]
                 (S (clock st)) None); trivial.
        - loop_trace_now.
        - lia.
        - quiet_steps. }
      one_turn w i st (S (S (clock st))) En IH.
    + destruct (sigint w (S (clock st))) eqn:E1; cbn; flatten_trace.
      { apply (loop_interrupted w _ i st
                 [EAccept i; ESigInt; EShutdownRequest i]
                 (S (clock st)) None); trivial.
        - loop_trace_now.
        - lia.
        - quiet_steps. }
      assert (Hx : is_Exception (exn_of_handler h) = true)
        by (destruct h; reflexivity).
      rewrite Hx. cbn.
      destruct (sigint w (S (S (clock st)))) eqn:E2; cbn; flatten_trace.
      { apply (loop_interrupted w _ i st [EAccept i; ESigInt]
                 (S (S (clock st))) (Some i)); trivial.
        - loop_trace_now.
        - lia.
        - quiet_steps. }
      destruct (stderr_result w i) as [e|] eqn:Ee; cbn; flatten_trace.
      { apply (loop_stderr_failed w _ i st
                 [EAccept i; EHandleError i (Some e)] _ i e); trivial.
        loop_trace_now. }
      apply (loop_shape_cons w _ i st (S (S (S (clock st)))));
        [ cbn [clock]; lia
        | quiet_steps
        | intros ? _; exact Ee
        | unfold turn_events; rewrite En; apply IH ].
Qed.

(** ** The browser launch *)

Lemma attempts_failed (w : World) (name : string) (rest : list string) :
  browser_open w (environ w) name url = Started false ->
  fst (attempts w (name :: rest)) = name :: fst (attempts w rest) /\
  snd (attempts w (name :: rest)) = snd (attempts w rest).
Proof.
  intros E. cbn. rewrite E. destruct (attempts w rest). split; reflexivity.
Qed.

Lemma browse_shape_eq (w : World) (names : list string) (st : Proc)
  (r r' : res bool * Proc) :
  browse_shape w names st r -> r = r' -> browse_shape w names st r'.
Proof. intros H E. rewrite <- E. exact H. Qed.

Lemma try_browsers_shape (w : World) : forall names st,
  browse_shape w names st (webbrowser.try_browsers url names w st).
Proof.
  induction names as [|name rest IH]; intros st.
  - eapply browse_shape_eq; [apply (browse_returned w [] st false)|].
    + reflexivity.
    + cbn. rewrite Nat.add_0_r. apply quiet_between_empty.
    + cbn. rewrite Nat.add_0_r. f_equal. symmetry. apply proc_eta.
  - cbn [webbrowser.try_browsers]. cbn.
    destruct (browser_open w (environ w) name url) as [[|]| |n] eqn:Eo.
    + cbn. destruct (sigint w (clock st)) eqn:E0; cbn.
      * eapply browse_shape_eq;
          [apply (browse_interrupted w _ st [name] (clock st) (S (clock st)));
           [discriminate | cbn; rewrite Eo; cbn; lia | exact E0]|].
        unfold proc. cbn. flatten_trace. reflexivity.
      * eapply browse_shape_eq; [apply (browse_returned w _ st true)|].
        -- cbn. rewrite Eo. reflexivity.
        -- cbn. rewrite Eo. cbn. intros t Ht.
           assert (t = clock st) as -> by lia. exact E0.
        -- cbn. rewrite Eo. cbn. unfold proc. rewrite Nat.add_1_r.
           reflexivity.
    + destruct (attempts_failed w name rest Eo) as [Ef Es].
      cbn. destruct (sigint w (clock st)) eqn:E0; cbn.
      * eapply browse_shape_eq;
          [apply (browse_interrupted w _ st [name] (clock st) (S (clock st)));
           [discriminate | rewrite Ef; cbn; lia | exact E0]|].
        unfold proc. cbn. flatten_trace. reflexivity.
      * match goal with
        | |- browse_shape _ _ _ (webbrowser.try_browsers _ _ _ ?s) =>
            pose proof (IH s) as H;
            destruct (webbrowser.try_browsers url rest w s) as [r st']
        end.
        inversion H as [b Hb Hq | n c Hn | ls k c Hl Hr Hk]; subst;
          cbn [proc cwd sock trace clock] in *.
        -- eapply browse_shape_eq; [apply (browse_returned w _ st b)|].
           ++ rewrite Es. exact Hb.
           ++ rewrite Ef. cbn [List.length].
              apply (quiet_between_app w _ (S (clock st))).
              ** intros t Ht. assert (t = clock st) as -> by lia. exact E0.
              ** rewrite Nat.add_succ_r. exact Hq.
           ++ rewrite Ef. cbn [List.length map]. unfold proc.
              rewrite Nat.add_succ_r. flatten_trace. reflexivity.
        -- eapply browse_shape_eq; [apply (browse_raised w _ st n c)|].
           ++ rewrite Es. exact Hn.
           ++ rewrite Ef. cbn [map]. unfold proc. flatten_trace.
              reflexivity.
        -- eapply browse_shape_eq;
             [apply (browse_interrupted w _ st (name :: ls) k c);
              [discriminate | rewrite Ef; cbn [List.length]; lia | exact Hk]|].
           cbn [map]. unfold proc. flatten_trace. reflexivity.
    + cbn. change (attempts w (name :: rest)) with
        (match browser_open w (environ w) name url with
         | OpenRaises n => ([], inr n)
         | NotStarted => attempts w rest
         | Started true => ([name], inl true)
         | Started false => let (l, r) := attempts w rest in (name :: l, r)
         end) in *.
      pose proof (IH st) as H. revert H.
      generalize (webbrowser.try_browsers url rest w st). intros r H.
      inversion H as [b Hb Hq | n c Hn | ls k c Hl Hr Hk]; subst.
      * eapply browse_shape_eq; [apply (browse_returned w _ st b)|].
        -- cbn. rewrite Eo. exact Hb.
        -- cbn. rewrite Eo. exact Hq.
        -- cbn. rewrite Eo. reflexivity.
      * eapply browse_shape_eq; [apply (browse_raised w _ st n c)|].
        -- cbn. rewrite Eo. exact Hn.
        -- cbn. rewrite Eo. reflexivity.
      * eapply browse_shape_eq;
          [apply (browse_interrupted w _ st ls k c); trivial;
           cbn; rewrite Eo; exact Hr|].
        reflexivity.
    + cbn. eapply browse_shape_eq;
        [apply (browse_raised w _ st n (clock st))|].
      * cbn. rewrite Eo. reflexivity.
      * cbn. rewrite Eo. cbn. f_equal. symmetry. apply proc_eta.
Qed.

(** ** The runs of the script *)

Lemma run_shape_eq (w : World) (fuel : nat) (r r' : outcome * Proc) :
  run_shape w fuel r -> r = r' -> run_shape w fuel r'.
Proof. intros H E. rewrite <- E. exact H. Qed.

Lemma browser_run_names (w : World) (names : list string) :
  tryorder w (environ w) = TryOrder names ->
  browser_run w = attempts w names.
Proof. unfold browser_run. intros ->. reflexivity. Qed.

Lemma browser_run_raises (w : World) (n : string) :
  tryorder w (environ w) = RegisterRaises n ->
  browser_run w = ([], inr n).
Proof. unfold browser_run. intros ->. reflexivity. Qed.

Ltac same_run :=
  unfold proc, startup_events, launch_events, bound_events, line1, line2,
    stopped, url, loop_start, launch;
  cbn; flatten_trace; repeat f_equal; try reflexivity; try lia.

Ltac shape C :=
  eapply run_shape_eq; [apply C; try assumption; try lia; auto | same_run].

Lemma run_shape_ok (w : World) (fuel : nat) : run_shape w fuel (run w fuel).
Proof.
  unfold run, main, with_as, try_except.
  cbn.
  destruct (sigint w 0) eqn:S0; cbn.
  { shape run_sigint_chdir. }
  destruct (chdir_result w "public") as [e|] eqn:Ec; cbn.
  { shape (run_chdir_failed w fuel e). }
  destruct (sigint w 1) eqn:S1; cbn.
  { shape (run_sigint_after_chdir w fuel 1 2); lia. }
  destruct (sigint w 2) eqn:S2; cbn.
  { shape (run_sigint_after_chdir w fuel 2 3); lia. }
  destruct (bind_result w "" PORT) as [e|] eqn:Eb; cbn.
  { shape (run_bind_failed w fuel e). }
  destruct (sigint w 3) eqn:S3; cbn.
  { shape (run_sigint_constructor w fuel [] 3 4); auto. }
  destruct (sigint w 4) eqn:S4; cbn.
  { shape (run_sigint_constructor w fuel [EListen] 4 5); auto. }
  destruct (sigint w 5) eqn:S5; cbn.
  { shape (run_sigint_unentered w fuel). }
  destruct (sigint w 6) eqn:S6; cbn.
  { shape (run_sigint_startup w fuel [] 6 7); auto. }
  destruct (sigint w 7) eqn:S7; cbn.
  { shape (run_sigint_startup w fuel [EPrint line1] 7 8); auto. }
  destruct (sigint w 8) eqn:S8; cbn.
  { shape (run_sigint_startup w fuel [EPrint line1] 8 9); auto. }
  destruct (sigint w 9) eqn:S9; cbn.
  { shape (run_sigint_startup w fuel [EPrint line1; EPrint line2] 9 10);
      auto. }
  destruct (sigint w 10) eqn:S10; cbn.
  { shape (run_sigint_startup w fuel [EPrint line1; EPrint line2] 10 11);
      auto. }
  destruct (tryorder w (environ w)) as [names|n] eqn:Et; cbn.
  2:{ pose proof (browser_run_raises w n Et) as Hbr.
      eapply run_shape_eq;
        [apply (run_browser_raised w fuel n 11); trivial;
         rewrite Hbr; reflexivity|].
      unfold startup_events, launch_events. rewrite Hbr. same_run. }
  pose proof (browser_run_names w names Et) as Hbr.
  change (webbrowser.try_browsers "http://localhost:8000")
    with (webbrowser.try_browsers url).
  match goal with
  | |- context [webbrowser.try_browsers url names w ?s] =>
      pose proof (try_browsers_shape w names s) as Hs;
      destruct (webbrowser.try_browsers url names w s) as [rb sb]
  end.
  inversion Hs as [b Hb Hq | n c Hn | ls k c Hl Hr Hk]; subst;
    rewrite <- ?Hbr in *;
    cbn [proc cwd sock trace clock] in *; cbn.
  - (* webbrowser.open returns *)
    match goal with
    | |- context [sigint w ?k] => destruct (sigint w k) eqn:Sp
    end; cbn.
    { shape (run_sigint_after_open w fuel b). }
    assert (St : started w).
    { repeat split; trivial.
      - exists b. exact Hb.
      - unfold loop_start.
        apply (quiet_between_app w _ 11); [quiet_steps|].
        apply (quiet_between_app w _ _ _ Hq).
        intros t Ht.
        assert (t = 11 + List.length (fst (browser_run w))) as -> by lia.
        exact Sp. }
    match goal with
    | |- context [socketserver.serve_loop fuel 0 w ?s] =>
        pose proof (serve_loop_shape w fuel 0 s) as Hl;
        destruct (socketserver.serve_loop fuel 0 w s) as [rl sl]
    end.
    inversion Hl as [c T Hc Qc Ee | l k cur T Hk Qk Pk | l c j e T Ej];
      subst; cbn [proc cwd sock trace clock] in *; cbn.
    + eapply run_shape_eq; [apply (run_serving w fuel c); trivial|].
      * destruct St as (_ & _ & _ & Q0).
        apply (quiet_between_app w _ _ _ Q0). exact Qc.
      * intros j e Hj. apply Ee. lia.
      * same_run.
    + destruct (sigint w (S k)) eqn:Sk1; cbn.
      { eapply run_shape_eq;
          [apply (run_stop_interrupted w fuel l k cur); trivial;
           unfold loop_start; lia|].
        same_run. }
      destruct (sigint w (S (S k))) eqn:Sk2; cbn.
      { eapply run_shape_eq;
          [apply (run_stop_interrupted_late w fuel l k cur); trivial;
           unfold loop_start; lia|].
        same_run. }
      eapply run_shape_eq;
        [apply (run_stopped w fuel l k cur); trivial;
         unfold loop_start; lia|].
      same_run.
    + eapply run_shape_eq;
        [apply (run_stderr_failed w fuel l c j e); trivial|].
      same_run.
  - (* webbrowser.open raises *)
    eapply run_shape_eq;
      [apply (run_browser_raised w fuel n c); trivial|].
    same_run.
  - (* interrupted while a browser command is waited for *)
    eapply run_shape_eq;
      [apply (run_sigint_browser w fuel ls k c); trivial;
       unfold loop_start; lia|].
    same_run.
Qed.

(** ** Case analysis on a run *)

(** Names the events of the startup again where a step has spelled them
    out. *)
Ltac fold_startup w :=
  repeat match goal with
  | |- context [EChdir "public" None :: ESocket :: EBind "" 8000 None
                :: EListen :: EPrint line1 :: EPrint line2 :: EWebOpen url
                :: launch_events w ++ ?x] =>
      change (EChdir "public" None :: ESocket :: EBind "" 8000 None
              :: EListen :: EPrint line1 :: EPrint line2 :: EWebOpen url
              :: launch_events w ++ x)
        with (startup_events w ++ x) in *
  | H : context [EChdir "public" None :: ESocket :: EBind "" 8000 None
                 :: EListen :: EPrint line1 :: EPrint line2 :: EWebOpen url
                 :: launch_events w ++ ?x] |- _ =>
      change (EChdir "public" None :: ESocket :: EBind "" 8000 None
              :: EListen :: EPrint line1 :: EPrint line2 :: EWebOpen url
              :: launch_events w ++ x)
        with (startup_events w ++ x) in *
  end.

Ltac run_cases w fuel :=
  unfold trace_of, outcome_of, final in *;
  let H := fresh "Hrun" in
  pose proof (run_shape_ok w fuel) as H;
  destruct (run w fuel) as [o st];
  inversion H; subst; clear H;
  repeat match goal with
  | D : _ = [] \/ _ = [_] \/ _ |- _ => destruct D as [ -> | [ -> | -> ] ]
  | D : _ = [] \/ _ = [_] |- _ => destruct D as [ -> | -> ]
  | T : loop_trace _ _ _ _ |- _ =>
      let E := fresh "Hev" in
      let S := fresh "Hsig" in
      let F := fresh "Hfail" in
      let V := fresh "Hserv" in
      destruct T as (E & S & F & V)
  end;
  cbn [fst snd proc trace sock cwd clock] in *;
  fold_startup w.

(** Splits a membership in a trace of known shape into its cases and
    closes those that name an event of another kind. *)
Ltac split_in H :=
  unfold startup_events, launch_events, bound_events in H;
  repeat match type of H with
  | In _ (_ ++ _) => apply in_app_or in H; destruct H as [H|H]
  | In _ (_ :: _) => destruct H as [H|H]
  | In _ [] => destruct H
  | _ = _ => try discriminate H
  end;
  try match type of H with
  | In _ (map launch _) =>
      apply launch_In in H; destruct H as [? H]; discriminate H
  | In _ ?l =>
      match goal with
      | E : forallb loop_event l = true |- _ =>
          apply (loop_event_In l _ E) in H; discriminate H
      end
  end.

Ltac bad_cases H := try solve [split_in H].

(** Membership in the trace of a concrete run, by evaluation. *)
Ltac in_list := vm_compute; repeat (first [left; reflexivity | right]).

(** Membership of an event of the script's own calls in a trace of known
    shape. *)
Ltac in_known :=
  solve [ unfold startup_events, bound_events; cbn [app In];
          repeat (first [left; reflexivity | right]) ].

Ltac not_loop_event :=
  intros [] He; try discriminate He; reflexivity.

(** Counts over a trace of known shape, down to the part the loop added. *)
Ltac count_all :=
  unfold count, startup_events, launch_events, bound_events in *;
  repeat (progress
    (cbn [filter List.length app is_sigint is_print is_webopen is_bind
          is_close is_chdir is_serve is_stderr_failure] in *;
     repeat rewrite filter_app in *;
     repeat rewrite length_app in *;
     repeat rewrite filter_launch in * by (intros; reflexivity))).

(** ** Fatal startup errors *)

(** C1: when the change of directory to [public] fails, the run ends with
    that [OSError] unhandled (exit status 1), and the failed [chdir] is the
    only thing that happened: no socket was created or bound. *)
Theorem chdir_failure_precedes_bind (w : World) (fuel : nat) (e : oserror) :
  In (EChdir "public" (Some e)) (trace_of w fuel) ->
  outcome_of w fuel = Unhandled (OSError e) /\
  exit_status (outcome_of w fuel) = Some 1%Z /\
  trace_of w fuel = [EChdir "public" (Some e)] /\
  sock (final w fuel) = NoSocket /\
  ~ In ESocket (trace_of w fuel) /\
  count is_bind (trace_of w fuel) = 0.
Proof.
  intros Hin. run_cases w fuel; split_in Hin.
  injection Hin as <-.
  repeat split; try reflexivity.
  intros [H|[]]; discriminate H.
Qed.

Lemma chdir_failure_precedes_bind_witness :
  In (EChdir "public" (Some FileNotFoundError)) (trace_of no_public 3) /\
  outcome_of no_public 3 = Unhandled (OSError FileNotFoundError) /\
  sock (final no_public 3) = NoSocket.
Proof.
  assert (H : In (EChdir "public" (Some FileNotFoundError))
                 (trace_of no_public 3)) by in_list.
  split; [exact H|].
  destruct (chdir_failure_precedes_bind no_public 3 FileNotFoundError H)
    as (Ho & _ & _ & Hs & _).
  split; [exact Ho | exact Hs].
Defined.

(** C9: when the change of directory fails, nothing has been written to
    standard output, and the browser has been neither asked for nor
    started. *)
Theorem chdir_failure_is_silent (w : World) (fuel : nat) (e : oserror) :
  In (EChdir "public" (Some e)) (trace_of w fuel) ->
  stdout_of (trace_of w fuel) = EmptyString /\
  count is_print (trace_of w fuel) = 0 /\
  count is_webopen (trace_of w fuel) = 0 /\
  count is_launch (trace_of w fuel) = 0.
Proof.
  intros Hin. run_cases w fuel; split_in Hin.
  repeat split; reflexivity.
Qed.

Lemma chdir_failure_is_silent_witness :
  In (EChdir "public" (Some FileNotFoundError)) (trace_of no_public 3) /\
  stdout_of (trace_of no_public 3) = EmptyString /\
  count is_webopen (trace_of no_public 3) = 0.
Proof.
  assert (H : In (EChdir "public" (Some FileNotFoundError))
                 (trace_of no_public 3)) by in_list.
  split; [exact H|].
  destruct (chdir_failure_is_silent no_public 3 FileNotFoundError H)
    as (Ho & _ & Hb & _).
  split; [exact Ho | exact Hb].
Defined.

(** C3: when the bind of port 8000 fails because the address is in use,
    the run ends with that [OSError] unhandled (exit status 1); the bind
    was tried once, the socket was closed, and nothing else followed: no
    output, no browser, no serve loop. *)
Theorem port_in_use_is_fatal (w : World) (fuel : nat) :
  In (EBind "" PORT (Some AddressInUse)) (trace_of w fuel) ->
  outcome_of w fuel = Unhandled (OSError AddressInUse) /\
  exit_status (outcome_of w fuel) = Some 1%Z /\
  trace_of w fuel =
    [EChdir "public" None; ESocket; EBind "" PORT (Some AddressInUse);
     EServerClose] /\
  count is_bind (trace_of w fuel) = 1 /\
  sock (final w fuel) = Closed /\
  ~ In EServeForever (trace_of w fuel).
Proof.
  intros Hin. run_cases w fuel; split_in Hin.
  injection Hin as <-.
  repeat split; try reflexivity.
  intros H. split_in H.
Qed.

Lemma port_in_use_is_fatal_witness :
  In (EBind "" PORT (Some AddressInUse)) (trace_of port_taken 3) /\
  outcome_of port_taken 3 = Unhandled (OSError AddressInUse) /\
  count is_bind (trace_of port_taken 3) = 1.
Proof.
  assert (H : In (EBind "" PORT (Some AddressInUse)) (trace_of port_taken 3))
    by in_list.
  split; [exact H|].
  destruct (port_in_use_is_fatal port_taken 3 H) as (Ho & _ & _ & Hb & _).
  split; [exact Ho | exact Hb].
Defined.


(** C10, as amended: a [KeyboardInterrupt] raised after the socket is
    bound and before [serve_forever] is entered is not caught: the run
    ends with it unhandled (the process is ended by SIGINT) and the
    shutdown message is not printed.  The socket is closed as the last
    thing that happens, by the constructor or by the [with] block, in all
    these runs but one: when the interrupt is raised after the
    constructor has returned and before the body of the [with] block is
    entered, it is the last event and the socket is left listening. *)
Theorem interrupt_before_loop_is_unhandled (w : World) (fuel : nat) :
  In (EBind "" PORT None) (trace_of w fuel) ->
  In ESigInt (trace_of w fuel) ->
  ~ In EServeForever (trace_of w fuel) ->
  outcome_of w fuel = Unhandled KeyboardInterrupt /\
  ended_by_signal (outcome_of w fuel) = Some 2%Z /\
  ~ In (EPrint stopped) (trace_of w fuel) /\
  ((sock (final w fuel) = Closed /\
    exists t, trace_of w fuel = t ++ [ESigInt; EServerClose]) \/
   (sock (final w fuel) = Listening /\
    trace_of w fuel = bound_events ++ [ESigInt])) /\
  (In (EPrint line1) (trace_of w fuel) -> sock (final w fuel) = Closed).
Proof.
  intros Hb Hs Hn.
  run_cases w fuel;
    try (exfalso; apply Hn; exact (in_elt EServeForever (startup_events w) _));
    bad_cases Hb; bad_cases Hs; clear Hb Hs Hn;
    (split; [reflexivity|]); (split; [reflexivity|]);
    (split; [intros H; split_in H|]); split.
  all: try (intros _; reflexivity).
  all: try (intros H; exfalso; split_in H; fail).
  all: try (right; split; reflexivity).
  all: left; (split; [reflexivity|]).
  - exists [EChdir "public" None; ESocket; EBind "" PORT None]. reflexivity.
  - exists [EChdir "public" None; ESocket; EBind "" PORT None; EListen].
    reflexivity.
  - exists bound_events. reflexivity.
  - exists (bound_events ++ [EPrint line1]). reflexivity.
  - exists (bound_events ++ [EPrint line1; EPrint line2]). reflexivity.
  - exists (bound_events ++ [EPrint line1; EPrint line2; EWebOpen url]
            ++ map launch ls).
    rewrite <- !app_assoc. reflexivity.
  - exists (startup_events w). reflexivity.
Qed.

Lemma interrupt_before_loop_is_unhandled_witness :
  In (EBind "" PORT None) (trace_of (with_sigint calm [8]) 4) /\
  In ESigInt (trace_of (with_sigint calm [8]) 4) /\
  ~ In EServeForever (trace_of (with_sigint calm [8]) 4) /\
  outcome_of (with_sigint calm [8]) 4 = Unhandled KeyboardInterrupt /\
  sock (final (with_sigint calm [8]) 4) = Closed.
Proof.
  assert (Hb : In (EBind "" PORT None) (trace_of (with_sigint calm [8]) 4))
    by in_list.
  assert (Hs : In ESigInt (trace_of (with_sigint calm [8]) 4))
    by in_list.
  assert (Hp : In (EPrint line1) (trace_of (with_sigint calm [8]) 4))
    by in_list.
  assert (Hn : ~ In EServeForever (trace_of (with_sigint calm [8]) 4)).
  { vm_compute. intros H.
    repeat (destruct H as [H|H]; [discriminate H|]). exact H. }
  destruct (interrupt_before_loop_is_unhandled (with_sigint calm [8]) 4
              Hb Hs Hn) as (Ho & _ & _ & _ & Hc).
  exact (conj Hb (conj Hs (conj Hn (conj Ho (Hc Hp))))).
Defined.

(** C10, as stated, fails: in the run below the interrupt is raised when
    the constructor has returned and the [with] block is not yet
    entered.  The socket is bound and listening, the loop is never
    entered, and nothing closes the socket. *)
Lemma interrupt_after_constructor_leaves_socket :
  In (EBind "" PORT None) (trace_of (with_sigint calm [5]) 4) /\
  In ESigInt (trace_of (with_sigint calm [5]) 4) /\
  ~ In EServeForever (trace_of (with_sigint calm [5]) 4) /\
  outcome_of (with_sigint calm [5]) 4 = Unhandled KeyboardInterrupt /\
  sock (final (with_sigint calm [5]) 4) = Listening /\
  ~ In EServerClose (trace_of (with_sigint calm [5]) 4).
Proof.
  split; [in_list|]. split; [in_list|].
  split.
  { vm_compute. intros H.
    repeat (destruct H as [H|H]; [discriminate H|]). exact H. }
  split; [vm_compute; reflexivity|].
  split; [vm_compute; reflexivity|].
  vm_compute. intros H.
  repeat (destruct H as [H|H]; [discriminate H|]). exact H.
Qed.

(** ** A startup that succeeds *)

Lemma before_serve_startup (w : World) (t : list event) :
  before_serve (startup_events w ++ EServeForever :: t) = startup_events w.
Proof.
  unfold startup_events, launch_events, bound_events.
  rewrite <- !app_assoc. cbn [app before_serve]. rewrite before_serve_launch. reflexivity.
Qed.

Lemma after_serve_startup (w : World) (t : list event) :
  after_serve (startup_events w ++ EServeForever :: t) = t.
Proof.
  unfold startup_events, launch_events, bound_events.
  rewrite <- !app_assoc. cbn [app after_serve]. apply after_serve_launch.
Qed.

Lemma startup_prints (w : World) :
  filter is_print (startup_events w) = [EPrint line1; EPrint line2].
Proof.
  unfold startup_events, launch_events, bound_events.
  rewrite !filter_app, filter_launch by (intros; reflexivity). reflexivity.
Qed.

Lemma startup_stdout (w : World) :
  stdout_of (startup_events w) = (line1 ++ nl ++ line2 ++ nl)%string.
Proof.
  unfold startup_events, launch_events, bound_events.
  rewrite !stdout_of_app, stdout_of_launch. reflexivity.
Qed.


Lemma entered_started (w : World) (fuel : nat) :
  In EServeForever (trace_of w fuel) -> started w.
Proof. intros Hin. run_cases w fuel; bad_cases Hin; assumption. Qed.

(** C4: in a run that enters the serve loop, the output written before
    the loop is entered comes from two calls of [print] and is two lines:
    the URL that is served, then how to stop the server. *)
Theorem two_status_lines (w : World) (fuel : nat) :
  In EServeForever (trace_of w fuel) ->
  filter is_print (before_serve (trace_of w fuel)) =
    [EPrint "Serving at http://localhost:8000";
     EPrint "Press Ctrl+C to stop the server"] /\
  text_lines (stdout_of (before_serve (trace_of w fuel))) =
    ["Serving at http://localhost:8000"%string;
     "Press Ctrl+C to stop the server"%string].
Proof.
  intros Hin. run_cases w fuel; bad_cases Hin; clear Hin;
    rewrite before_serve_startup, startup_prints, startup_stdout;
    split; reflexivity.
Qed.

Lemma two_status_lines_witness :
  In EServeForever (trace_of calm 6) /\
  text_lines (stdout_of (before_serve (trace_of calm 6))) =
    ["Serving at http://localhost:8000"%string;
     "Press Ctrl+C to stop the server"%string].
Proof.
  assert (H : In EServeForever (trace_of calm 6)) by in_list.
  split; [exact H | exact (proj2 (two_status_lines calm 6 H))].
Defined.

Lemma startup_webopen (w : World) (t : list event) :
  (forall e, In e t -> is_webopen e = false) ->
  count is_webopen (startup_events w ++ t) = 1.
Proof.
  intros Ht. unfold count, startup_events, launch_events, bound_events.
  rewrite !filter_app, filter_launch by (intros; reflexivity).
  replace (filter is_webopen t) with (@nil event); [reflexivity|].
  symmetry. induction t as [|e t IH]; [reflexivity|].
  cbn. rewrite (Ht e (or_introl eq_refl)).
  apply IH. intros x Hx. apply Ht. right. exact Hx.
Qed.

Ltac no_webopen_after :=
  intros x Hx; split_in Hx; subst x; reflexivity.

(** C5, as amended: in every run that enters the serve loop,
    [webbrowser.open] was called once, with the root URL, after the two
    status lines and before the loop, and it returned.  A failure that
    [webbrowser.open] reports by what it returns is not fatal: once it is
    called, a run in which it returns, be it [False] with or without a
    command started, and in which no [KeyboardInterrupt] is raised,
    enters the serve loop.  A failure that it raises is fatal: the
    exception is not handled, the [with] block closes the socket and the
    script ends without entering the loop. *)
Theorem browser_opened_once (w : World) (fuel : nat) :
  (In EServeForever (trace_of w fuel) ->
   (exists rest,
      trace_of w fuel =
        bound_events
        ++ [EPrint line1; EPrint line2; EWebOpen "http://localhost:8000"]
        ++ launch_events w ++ EServeForever :: rest) /\
   count is_webopen (trace_of w fuel) = 1 /\
   exists b, snd (browser_run w) = inl b) /\
  (forall b,
   In (EWebOpen "http://localhost:8000") (trace_of w fuel) ->
   snd (browser_run w) = inl b ->
   count is_sigint (trace_of w fuel) = 0 ->
   In EServeForever (trace_of w fuel)) /\
  (forall n,
   In (EWebOpen "http://localhost:8000") (trace_of w fuel) ->
   snd (browser_run w) = inr n ->
   count is_sigint (trace_of w fuel) = 0 ->
   outcome_of w fuel = Unhandled (OtherException n) /\
   exit_status (outcome_of w fuel) = Some 1%Z /\
   ~ In EServeForever (trace_of w fuel) /\
   trace_of w fuel = startup_events w ++ [EServerClose] /\
   sock (final w fuel) = Closed).
Proof.
  split; [|split].
  - intros Hin. pose proof (entered_started w fuel Hin) as (_ & _ & Hb & _).
    run_cases w fuel; bad_cases Hin; clear Hin.
    all: split;
      [ eexists; unfold startup_events; rewrite <- !app_assoc; reflexivity
      | split; [|exact Hb] ].
    all: apply startup_webopen; intros x Hx; destruct Hx as [<-|Hx];
      [reflexivity|].
    all: split_in Hx; try (subst x; reflexivity).
    all: try (apply (loop_event_In _ x Hev) in Hx; destruct x;
              try discriminate Hx; reflexivity).
  - intros b Ho Hb Hs.
    run_cases w fuel; bad_cases Ho;
      try exact (in_elt EServeForever (startup_events w) _);
      exfalso.
    + count_all. cbn in Hs. lia.
    + congruence.
    + count_all. cbn in Hs. lia.
  - intros n Ho Hb Hs.
    run_cases w fuel; bad_cases Ho;
      try (exfalso; count_all; cbn in Hs; lia);
      try match goal with
      | St : started w |- _ =>
          exfalso; destruct St as (_ & _ & (b0 & Hb0) & _); congruence
      end.
    assert (n0 = n) as -> by congruence.
    do 2 (split; [reflexivity|]).
    split; [intros H; split_in H|].
    split; reflexivity.
Qed.

Lemma browser_opened_once_witness :
  In (EWebOpen "http://localhost:8000") (trace_of headless 6) /\
  snd (browser_run headless) = inl false /\
  count is_sigint (trace_of headless 6) = 0 /\
  count is_launch (trace_of headless 6) = 0 /\
  In EServeForever (trace_of headless 6).
Proof.
  assert (Ho : In (EWebOpen "http://localhost:8000") (trace_of headless 6))
    by in_list.
  assert (Hb : snd (browser_run headless) = inl false) by reflexivity.
  assert (Hs : count is_sigint (trace_of headless 6) = 0)
    by (vm_compute; reflexivity).
  assert (Hl : count is_launch (trace_of headless 6) = 0)
    by (vm_compute; reflexivity).
  exact (conj Ho (conj Hb (conj Hs (conj Hl
           (proj1 (proj2 (browser_opened_once headless 6)) false Ho Hb Hs))))).
Defined.

(** C5, as stated, fails where it says that a failure of the browser
    launch is not fatal: with a blank [BROWSER] the script calls
    [webbrowser.open], which raises; no [KeyboardInterrupt] is raised
    and the serve loop is never entered. *)
Lemma browser_failure_is_fatal :
  In (EWebOpen "http://localhost:8000")
     (trace_of (with_environ calm (browser_env " ")) 6) /\
  count is_sigint (trace_of (with_environ calm (browser_env " ")) 6) = 0 /\
  count is_launch (trace_of (with_environ calm (browser_env " ")) 6) = 0 /\
  ~ In EServeForever (trace_of (with_environ calm (browser_env " ")) 6) /\
  outcome_of (with_environ calm (browser_env " ")) 6
    = Unhandled (OtherException "IndexError").
Proof.
  split; [in_list|].
  split; [vm_compute; reflexivity|].
  split; [vm_compute; reflexivity|].
  split; [|reflexivity].
  vm_compute. intros H.
  repeat (destruct H as [H|H]; [discriminate H|]). exact H.
Qed.

(** ** Interrupt and shutdown *)

(** C2: in a run that enters the serve loop and in which one
    [KeyboardInterrupt] is raised, the interrupt is caught: the script
    prints the shutdown message, the [with] block closes the listening
    socket, and the process ends with exit status 0. *)
Theorem interrupt_in_loop_exits_cleanly (w : World) (fuel : nat) :
  In EServeForever (trace_of w fuel) ->
  count is_sigint (trace_of w fuel) = 1 ->
  outcome_of w fuel = Exited 0 /\
  exit_status (outcome_of w fuel) = Some 0%Z /\
  sock (final w fuel) = Closed /\
  exists l,
    trace_of w fuel =
      startup_events w ++ EServeForever :: l
      ++ [EPrint stopped; EServerClose] /\
    count is_sigint l = 1 /\
    forallb loop_event l = true.
Proof.
  intros Hin Hc. run_cases w fuel; bad_cases Hin; clear Hin;
    try (exfalso; count_all; cbn in Hc; lia).
  repeat split. exists l. repeat split; trivial.
Qed.

Lemma interrupt_in_loop_exits_cleanly_witness :
  In EServeForever (trace_of (with_sigint calm [17]) 9) /\
  count is_sigint (trace_of (with_sigint calm [17]) 9) = 1 /\
  outcome_of (with_sigint calm [17]) 9 = Exited 0 /\
  sock (final (with_sigint calm [17]) 9) = Closed.
Proof.
  assert (Hin : In EServeForever (trace_of (with_sigint calm [17]) 9))
    by in_list.
  assert (Hc : count is_sigint (trace_of (with_sigint calm [17]) 9) = 1)
    by (vm_compute; reflexivity).
  destruct (interrupt_in_loop_exits_cleanly (with_sigint calm [17]) 9 Hin Hc)
    as (Ho & _ & Hs & _).
  exact (conj Hin (conj Hc (conj Ho Hs))).
Defined.

(** C6, as amended: in a run that enters the serve loop and in which one
    [KeyboardInterrupt] is raised, the output written after the loop was
    entered comes from one call of [print]; its text is a line feed, the
    message and a line feed, that is an empty line and then the line
    [Server stopped.] *)
Theorem shutdown_output (w : World) (fuel : nat) :
  In EServeForever (trace_of w fuel) ->
  count is_sigint (trace_of w fuel) = 1 ->
  filter is_print (after_serve (trace_of w fuel)) = [EPrint stopped] /\
  stdout_of (after_serve (trace_of w fuel)) =
    (nl ++ "Server stopped." ++ nl)%string /\
  text_lines (stdout_of (after_serve (trace_of w fuel))) =
    [EmptyString; "Server stopped."%string].
Proof.
  intros Hin Hc. run_cases w fuel; bad_cases Hin; clear Hin;
    try (exfalso; count_all; cbn in Hc; lia).
  clear Hc. rewrite after_serve_startup.
  rewrite filter_app, stdout_of_app, (stdout_of_loop l),
    (filter_loop is_print l);
    trivial; try not_loop_event.
  repeat split; reflexivity.
Qed.

Lemma shutdown_output_witness :
  In EServeForever (trace_of (with_sigint calm [17]) 9) /\
  count is_sigint (trace_of (with_sigint calm [17]) 9) = 1 /\
  text_lines (stdout_of (after_serve (trace_of (with_sigint calm [17]) 9))) =
    [EmptyString; "Server stopped."%string].
Proof.
  assert (Hin : In EServeForever (trace_of (with_sigint calm [17]) 9))
    by in_list.
  assert (Hc : count is_sigint (trace_of (with_sigint calm [17]) 9) = 1)
    by (vm_compute; reflexivity).
  destruct (shutdown_output (with_sigint calm [17]) 9 Hin Hc) as (_ & _ & Hl).
  exact (conj Hin (conj Hc Hl)).
Defined.

(** C6, as stated, fails: the run below enters the serve loop, is
    interrupted once and exits with status 0, and the text it writes at
    shutdown is two lines, the first of them empty. *)
Lemma shutdown_output_is_two_lines :
  In EServeForever (trace_of (with_sigint calm [17]) 9) /\
  count is_sigint (trace_of (with_sigint calm [17]) 9) = 1 /\
  outcome_of (with_sigint calm [17]) 9 = Exited 0 /\
  List.length
    (text_lines
       (stdout_of (after_serve (trace_of (with_sigint calm [17]) 9))))
  <> 1.
Proof.
  split; [in_list|].
  split; [vm_compute; reflexivity|].
  split; [vm_compute; reflexivity|].
  vm_compute. discriminate.
Qed.

(** ** The serve loop *)


Lemma count_sigint_In (l : list event) :
  count is_sigint l <> 0 -> In ESigInt l.
Proof.
  unfold count. induction l as [|e l IH]; cbn [filter]; [intros H; now elim H|].
  destruct e; cbn [is_sigint]; try (intros H; right; exact (IH H)).
  intros _. left. reflexivity.
Qed.

Lemma In_loop_part (w : World) (e : event) (l tl : list event) :
  In e l -> In e (startup_events w ++ EServeForever :: l ++ tl).
Proof.
  intros H. apply in_or_app. right. right. apply in_or_app. left. exact H.
Qed.

Ltac not_started St :=
  try solve
    [ destruct St as (Ec & Eb & (b0 & Hb0) & Q);
      first
        [ congruence
        | match goal with
          | H : sigint _ ?k = true |- _ =>
              rewrite (Q k) in H by (unfold loop_start in *; lia);
              discriminate H
          end ] ].

(** A SIGINT that arrives while the script is in the serve loop is
    noticed: the script is no longer in the loop once the loop has been
    observed for enough turns. *)
Lemma interrupt_is_noticed (w : World) (fuel k : nat) :
  started w -> In k (sigint_ticks w) ->
  loop_start w <= k < loop_start w + fuel ->
  outcome_of w fuel <> Running.
Proof.
  intros St Hk Hb. apply pending_scheduled in Hk.
  run_cases w fuel; try discriminate.
  exfalso.
  match goal with
  | Q : quiet_between w 0 _ |- _ => rewrite (Q k) in Hk by lia
  end.
  discriminate Hk.
Qed.

(** With one SIGINT, sent while the script is in the serve loop, and
    standard error writable, the script ends with exit status 0 once the
    loop has been observed for enough turns. *)
Lemma one_interrupt_ends_the_run (w : World) (fuel k : nat) :
  started w -> sigint_ticks w = [k] ->
  (forall i, stderr_result w i = None) ->
  loop_start w <= k < loop_start w + fuel ->
  outcome_of w fuel = Exited 0.
Proof.
  intros St Hk He Hb.
  assert (Hone : forall j, sigint w j = true -> j = k).
  { intros j Hj. apply pending_scheduled in Hj. rewrite Hk in Hj.
    destruct Hj as [Hj|[]]. symmetry. exact Hj. }
  assert (Hp : sigint w k = true)
    by (apply pending_scheduled; rewrite Hk; left; reflexivity).
  run_cases w fuel; not_started St; try reflexivity; exfalso.
  - match goal with
    | Q : quiet_between w 0 _ |- _ => rewrite (Q k) in Hp by lia
    end.
    discriminate Hp.
  - match goal with
    | A : sigint w ?a = true, B : sigint w (S ?a) = true |- _ =>
        apply Hone in A; apply Hone in B; lia
    end.
  - match goal with
    | A : sigint w ?a = true, B : sigint w (S (S ?a)) = true |- _ =>
        apply Hone in A; apply Hone in B; lia
    end.
Qed.




(** ** The environment *)












(** ** Standard output, working directory, bound address *)

(** The turns of the loop hold no event of the kind [p]. *)
Ltac loop_free p :=
  repeat match goal with
  | E : forallb loop_event ?l = true |- context [filter p ?l] =>
      rewrite (filter_loop p l) by (trivial; not_loop_event)
  end.


(** A [KeyboardInterrupt] raised before the socket is created ends the
    script at once: it is unhandled, nothing was written, no browser was
    asked for, and there is no socket to close. *)
Theorem interrupt_before_socket (w : World) (fuel : nat) :
  In ESigInt (trace_of w fuel) ->
  ~ In ESocket (trace_of w fuel) ->
  outcome_of w fuel = Unhandled KeyboardInterrupt /\
  sock (final w fuel) = NoSocket /\
  stdout_of (trace_of w fuel) = EmptyString /\
  count is_webopen (trace_of w fuel) = 0 /\
  count is_close (trace_of w fuel) = 0 /\
  exists t, trace_of w fuel = t ++ [ESigInt].
Proof.
  intros Hs Hn. run_cases w fuel; bad_cases Hs; clear Hs;
    try solve [exfalso; apply Hn; in_known].
  - do 5 (split; [reflexivity|]). exists []. reflexivity.
  - do 5 (split; [reflexivity|]). exists [EChdir "public" None].
    reflexivity.
Qed.

Lemma interrupt_before_socket_witness :
  In ESigInt (trace_of (with_sigint calm [1]) 4) /\
  ~ In ESocket (trace_of (with_sigint calm [1]) 4) /\
  outcome_of (with_sigint calm [1]) 4 = Unhandled KeyboardInterrupt /\
  sock (final (with_sigint calm [1]) 4) = NoSocket.
Proof.
  assert (Hs : In ESigInt (trace_of (with_sigint calm [1]) 4)) by in_list.
  assert (Hn : ~ In ESocket (trace_of (with_sigint calm [1]) 4)).
  { vm_compute. intros H.
    repeat (destruct H as [H|H]; [discriminate H|]). exact H. }
  destruct (interrupt_before_socket (with_sigint calm [1]) 4 Hs Hn)
    as (Ho & Hk & _).
  exact (conj Hs (conj Hn (conj Ho Hk))).
Defined.

(** The working directory is changed once, to [public], and stays there:
    it is [public] in every run in which the [chdir] succeeded, whatever
    happens later, and the start directory otherwise. *)
Theorem working_directory (w : World) (fuel : nat) :
  (In (EChdir "public" None) (trace_of w fuel) ->
   cwd (final w fuel) = ["public"%string]) /\
  (~ In (EChdir "public" None) (trace_of w fuel) ->
   cwd (final w fuel) = []) /\
  count is_chdir (trace_of w fuel) <= 1 /\
  (forall p r, In (EChdir p r) (trace_of w fuel) ->
   p = "public"%string /\ r = chdir_result w "public").
Proof.
  split; [|split; [|split]].
  - intros H. run_cases w fuel; bad_cases H; reflexivity.
  - intros Hn. run_cases w fuel; try reflexivity;
      exfalso; apply Hn; in_known.
  - run_cases w fuel; count_all;
      loop_free is_chdir; cbn; lia.
  - intros p r H.
    run_cases w fuel; split_in H; injection H as <- <-;
      (split; [reflexivity|]);
      match goal with
      | St : started w |- _ => destruct St as (Ec & _); congruence
      | _ => congruence
      end.
Qed.

(** The script binds one address only, port 8000 on all interfaces, and
    tries once: every bind in a run is that one, with the result the
    world gives for it. *)
Theorem bind_address_fixed (w : World) (fuel : nat) (h : string) (p : Z)
  (r : option oserror) :
  In (EBind h p r) (trace_of w fuel) ->
  h = EmptyString /\ p = 8000%Z /\ r = bind_result w "" 8000 /\
  count is_bind (trace_of w fuel) = 1.
Proof.
  intros H.
  run_cases w fuel; split_in H; injection H as <- <- <-;
    (split; [reflexivity|]); (split; [reflexivity|]);
    (split;
     [ match goal with
       | St : started w |- _ =>
           destruct St as (_ & Eb & _); unfold PORT in *; congruence
       | _ => unfold PORT in *; congruence
       end |]);
    count_all;
    loop_free is_bind; reflexivity.
Qed.

Lemma bind_address_fixed_witness :
  In (EBind "" 8000 None) (trace_of calm 2) /\
  count is_bind (trace_of calm 2) = 1.
Proof.
  assert (H : In (EBind "" 8000 None) (trace_of calm 2)) by in_list.
  destruct (bind_address_fixed calm 2 "" 8000 None H) as (_ & _ & _ & Hc).
  exact (conj H Hc).
Defined.

(** ** Program order *)

(** The calls of the script happen in the order of the program text: a
    socket is created only after the [chdir] succeeded, something is
    printed only once the socket listens, the browser is asked for only
    after both status lines, with the root URL, and the serve loop is
    entered only after the browser was asked for. *)
Theorem startup_in_program_order (w : World) (fuel : nat) :
  (In ESocket (trace_of w fuel) ->
   In (EChdir "public" None) (trace_of w fuel)) /\
  (forall s, In (EPrint s) (trace_of w fuel) ->
   In EListen (trace_of w fuel)) /\
  (forall u, In (EWebOpen u) (trace_of w fuel) ->
   u = "http://localhost:8000"%string /\
   In (EPrint line1) (trace_of w fuel) /\
   In (EPrint line2) (trace_of w fuel)) /\
  (In EServeForever (trace_of w fuel) ->
   In (EWebOpen "http://localhost:8000") (trace_of w fuel)).
Proof.
  split; [|split; [|split]].
  - intros H. run_cases w fuel; bad_cases H; in_known.
  - intros s H. run_cases w fuel; bad_cases H; in_known.
  - intros u H. run_cases w fuel; bad_cases H;
      (assert (E : u = "http://localhost:8000"%string)
         by (split_in H; injection H as <-; reflexivity));
      (split; [exact E|]); split; in_known.
  - intros H. run_cases w fuel; bad_cases H; in_known.
Qed.

(** ** Witnesses for the interrupt lemmas *)

Lemma started_interrupted_late : started (with_sigint calm [17]).
Proof.
  split; [reflexivity|]. split; [reflexivity|].
  split; [exists true; reflexivity|].
  intros t Ht. do 13 (destruct t as [|t]; [reflexivity|]).
  cbn in Ht. lia.
Qed.

Lemma one_interrupt_ends_the_run_witness :
  started (with_sigint calm [17]) /\
  loop_start (with_sigint calm [17]) = 13 /\
  outcome_of (with_sigint calm [17]) 9 = Exited 0.
Proof.
  assert (Hb : loop_start (with_sigint calm [17]) <= 17
               < loop_start (with_sigint calm [17]) + 9)
    by (cbn; lia).
  exact (conj started_interrupted_late
          (conj eq_refl
             (one_interrupt_ends_the_run (with_sigint calm [17]) 9 17
                started_interrupted_late eq_refl (fun _ => eq_refl) Hb))).
Defined.

Lemma interrupt_is_noticed_witness :
  started (with_sigint calm [17]) /\
  In 17 (sigint_ticks (with_sigint calm [17])) /\
  outcome_of (with_sigint calm [17]) 9 <> Running.
Proof.
  assert (Hk : In 17 (sigint_ticks (with_sigint calm [17])))
    by (left; reflexivity).
  assert (Hb : loop_start (with_sigint calm [17]) <= 17
               < loop_start (with_sigint calm [17]) + 9)
    by (cbn; lia).
  exact (conj started_interrupted_late
          (conj Hk
             (interrupt_is_noticed (with_sigint calm [17]) 9 17
                started_interrupted_late Hk Hb))).
Defined.
